(** * UniversityDashboard.jsx: a shallow embedding and its properties

    The component [UniversityDashboard] of
    [client/src/university/UniversityDashboard.jsx] holds four pieces of
    React state, starts two HTTP requests when it mounts, and renders a
    profile card, three counters and a bar chart.

    The embedding follows the source:
    - values that travel through the component (response bodies, the
      [university] and [examStats] state) are JavaScript values, [JsValue];
    - the two [async] functions are programs of a resumption monad [Prog]
      that suspends at [await] and is resumed with the settlement of the
      request; [try]/[catch]/[finally] are combinators of that monad;
    - every effect (state setter, toast, request, console, storage,
      navigation) is appended to a chronological [trace];
    - the JSX expressions the properties speak about (the profile card,
      [chartData], [chartOptions]) are pure functions of the state;
      [render] is the component function, [display] what React mounts
      from its result. *)

From Stdlib Require Import ZArith String List Bool Lia.
From Stdlib Require Import Floats.PrimFloat.
From stdpp Require Import base option list gmap strings.

Local Open Scope string_scope.
Local Open Scope list_scope.

(** ** JavaScript values *)

Module Js.

(** A JavaScript value as it can come out of [JSON.parse], plus
    [undefined].  Numbers are IEEE 754 doubles, objects are finite maps
    from property names to values. *)
#[warnings="-register-all"]
Inductive JsValue : Type :=
| JUndefined
| JNull
| JBool (b : bool)
| JNum (x : float)
| JStr (s : string)
| JArr (xs : list JsValue)
| JObj (fields : gmap string JsValue).

(** ToBoolean: [undefined], [null], [false], [0], [-0], [NaN] and the
    empty string are falsy, everything else is truthy. *)
Definition truthy (v : JsValue) : bool :=
  match v with
  | JUndefined | JNull => false
  | JBool b => b
  | JNum x => negb (PrimFloat.eqb x 0%float || PrimFloat.is_nan x)
  | JStr s => negb (bool_decide (s = ""))
  | JArr _ | JObj _ => true
  end.

Definition nullish (v : JsValue) : bool :=
  match v with
  | JUndefined | JNull => true
  | _ => false
  end.

(** The property names the component reads.  None of them is a built-in
    property of a string, number, boolean or array, so on those values the
    read yields [undefined]. *)
Inductive PropName : Type :=
| P_totalExams
| P_studentsAssigned
| P_studentsAttended
| P_universityLogo
| P_secure_url
| P_universityName
| P_universityEmail.

Definition prop_key (p : PropName) : string :=
  match p with
  | P_totalExams => "totalExams"
  | P_studentsAssigned => "studentsAssigned"
  | P_studentsAttended => "studentsAttended"
  | P_universityLogo => "universityLogo"
  | P_secure_url => "secure_url"
  | P_universityName => "universityName"
  | P_universityEmail => "universityEmail"
  end.

(** What a [throw] carries: the [TypeError] of a property read on
    [null]/[undefined], or the error a rejected request carries. *)
Inductive Thrown : Type :=
| TypeError (base : JsValue) (p : PropName)
| AxiosError (message : string).

(** Completion of an expression: a value, or an abrupt [throw]. *)
Inductive Completion (A : Type) : Type :=
| Normal (a : A)
| Throw (e : Thrown).
Arguments Normal {A} a.
Arguments Throw {A} e.

Definition cbind {A B} (c : Completion A) (f : A -> Completion B)
  : Completion B :=
  match c with
  | Normal a => f a
  | Throw e => Throw e
  end.

(** The value of [v.p] where the read is defined: the property of an
    object, [undefined] when the object lacks it or [v] is a primitive or
    an array. *)
Definition property (v : JsValue) (p : PropName) : JsValue :=
  match v with
  | JObj fields => default JUndefined (fields !! prop_key p)
  | _ => JUndefined
  end.

(** [v.p]: a read on [null] or [undefined] throws a [TypeError]. *)
Definition member (v : JsValue) (p : PropName) : Completion JsValue :=
  if nullish v then Throw (TypeError v p) else Normal (property v p).

(** [v?.p] *)
Definition opt_member (v : JsValue) (p : PropName) : Completion JsValue :=
  if nullish v then Normal JUndefined else member v p.

(** [a || b] *)
Definition or_else (a b : JsValue) : JsValue :=
  if truthy a then a else b.

(** [has_own v p]: [v] is an object that carries the property [p]. *)
Definition has_own (v : JsValue) (p : PropName) : bool :=
  match v with
  | JObj fields => bool_decide (is_Some (fields !! prop_key p))
  | _ => false
  end.

(** An object literal [{ k1: v1, ... }]. *)
Definition object (kvs : list (string * JsValue)) : JsValue :=
  JObj (list_to_map kvs).

End Js.
Export Js.

#[global] Instance Completion_bind : MBind Completion :=
  fun A B f c => cbind c f.
#[global] Instance Completion_ret : MRet Completion := @Normal.

(** ** The world the component acts on *)

(** The HTTP client ([axiosInstance], configured outside this file): a
    request is fulfilled with a response object carrying the parsed body
    in [data], or rejected with an error. *)
Module Axios.

Record Request : Type := { method : string; path : string }.

Record Response : Type := { data : JsValue; status : Z }.

Inductive Settlement : Type :=
| Fulfilled (response : Response)
| Rejected (error : Thrown).

End Axios.

(** react-hot-toast: the notifications currently on screen. *)
Inductive ToastKind : Type := Loading | Success | Error.

Record Toast : Type := { kind : ToastKind; message : string }.

#[global] Instance ToastKind_eq_dec : EqDecision ToastKind.
Proof. solve_decision. Defined.

(** The four [useState] cells of the component. *)
Record ViewState : Type := {
  university : JsValue;
  examStats : JsValue;
  loading : bool;
  sidebarOpen : bool
}.

(** Every effect the component performs, as it is recorded in the trace. *)
Inductive Event : Type :=
| ESetUniversity (v : JsValue)
| ESetExamStats (v : JsValue)
| ESetLoading (b : bool)
| ESetSidebarOpen (b : bool)
| EToastLoading (msg : string)
| EToastSuccess (msg : string)
| EToastError (msg : string)
| EToastDismiss
| ERequest (r : Axios.Request)
| EConsoleError (msg : string) (e : Thrown)
| EStorageRemove (key : string)
| ENavigate (to : string).

Record World : Type := {
  state : ViewState;
  toasts : list Toast;
  localStorage : gmap string string;
  location : string;
  trace : list Event
}.

Definition emit (e : Event) (w : World) : World :=
  {| state := state w; toasts := toasts w; localStorage := localStorage w;
     location := location w; trace := trace w ++ [e] |}.

Definition with_state (f : ViewState -> ViewState) (w : World) : World :=
  {| state := f (state w); toasts := toasts w;
     localStorage := localStorage w; location := location w;
     trace := trace w |}.

Definition with_toasts (f : list Toast -> list Toast) (w : World) : World :=
  {| state := state w; toasts := f (toasts w);
     localStorage := localStorage w; location := location w;
     trace := trace w |}.

Definition with_localStorage (f : gmap string string -> gmap string string)
  (w : World) : World :=
  {| state := state w; toasts := toasts w;
     localStorage := f (localStorage w); location := location w;
     trace := trace w |}.

Definition with_location (to : string) (w : World) : World :=
  {| state := state w; toasts := toasts w; localStorage := localStorage w;
     location := to; trace := trace w |}.

(** ** Async functions: a resumption monad with exceptions *)

(** Running a piece of an [async] function in a world either completes
    (normally or by a [throw]) or stops at an [await] on a request, with
    the continuation that is resumed once the request has settled. *)
Inductive Step (A : Type) : Type :=
| Finished (c : Completion A) (w : World)
| Suspended (r : Axios.Request) (w : World)
    (k : Axios.Settlement -> World -> Step A).
Arguments Finished {A} c w.
Arguments Suspended {A} r w k.

Definition Prog (A : Type) : Type := World -> Step A.

Fixpoint bind_step {A B} (s : Step A) (f : A -> Prog B) : Step B :=
  match s with
  | Finished (Normal a) w => f a w
  | Finished (Throw e) w => Finished (Throw e) w
  | Suspended r w k => Suspended r w (fun o w' => bind_step (k o w') f)
  end.

(** [catch (error) { h error }] around a running body. *)
Fixpoint catch_step {A} (s : Step A) (h : Thrown -> Prog A) : Step A :=
  match s with
  | Finished (Normal a) w => Finished (Normal a) w
  | Finished (Throw e) w => h e w
  | Suspended r w k => Suspended r w (fun o w' => catch_step (k o w') h)
  end.

(** [finally { fin }]: [fin] runs after the body however it completed;
    the body's completion stands unless [fin] itself throws. *)
Fixpoint finally_step {A} (s : Step A) (fin : Prog unit) : Step A :=
  match s with
  | Finished c w => bind_step (fin w) (fun _ w' => Finished c w')
  | Suspended r w k => Suspended r w (fun o w' => finally_step (k o w') fin)
  end.

#[global] Instance Prog_ret : MRet Prog :=
  fun A a w => Finished (Normal a) w.
#[global] Instance Prog_bind : MBind Prog :=
  fun A B f m w => bind_step (m w) f.

Definition try_catch_finally {A} (body : Prog A) (h : Thrown -> Prog A)
  (fin : Prog unit) : Prog A :=
  fun w => finally_step (catch_step (body w) h) fin.

(** An effect that cannot fail and does not suspend. *)
Definition effect (f : World -> World) : Prog unit :=
  fun w => Finished (Normal tt) (f w).

(** [await p] for the promise of a request: the request goes out, the
    function suspends, and it resumes with the response or with the
    rejection thrown at the [await]. *)
Definition await (r : Axios.Request) : Prog Axios.Response :=
  fun w =>
    Suspended r (emit (ERequest r) w)
      (fun o w' =>
         match o with
         | Axios.Fulfilled response => Finished (Normal response) w'
         | Axios.Rejected error => Finished (Throw error) w'
         end).

(** ** The effects the component uses *)

(** React state setters.  Each one is called with a value (never with an
    updater function), so applying it at once gives the state the next
    render sees. *)
Definition setUniversity (v : JsValue) : Prog unit :=
  effect (fun w =>
    emit (ESetUniversity v)
      (with_state (fun s =>
         {| university := v; examStats := examStats s;
            loading := loading s; sidebarOpen := sidebarOpen s |}) w)).

Definition setExamStats (v : JsValue) : Prog unit :=
  effect (fun w =>
    emit (ESetExamStats v)
      (with_state (fun s =>
         {| university := university s; examStats := v;
            loading := loading s; sidebarOpen := sidebarOpen s |}) w)).

Definition setLoading (b : bool) : Prog unit :=
  effect (fun w =>
    emit (ESetLoading b)
      (with_state (fun s =>
         {| university := university s; examStats := examStats s;
            loading := b; sidebarOpen := sidebarOpen s |}) w)).

Definition setSidebarOpen (b : bool) : Prog unit :=
  effect (fun w =>
    emit (ESetSidebarOpen b)
      (with_state (fun s =>
         {| university := university s; examStats := examStats s;
            loading := loading s; sidebarOpen := b |}) w)).

(** react-hot-toast.  [toast.dismiss()] without an id takes every
    notification off the screen. *)
Definition toast_loading (msg : string) : Prog unit :=
  effect (fun w =>
    emit (EToastLoading msg)
      (with_toasts (cons {| kind := Loading; message := msg |}) w)).

Definition toast_success (msg : string) : Prog unit :=
  effect (fun w =>
    emit (EToastSuccess msg)
      (with_toasts (cons {| kind := Success; message := msg |}) w)).

Definition toast_error (msg : string) : Prog unit :=
  effect (fun w =>
    emit (EToastError msg)
      (with_toasts (cons {| kind := Error; message := msg |}) w)).

Definition toast_dismiss : Prog unit :=
  effect (fun w => emit EToastDismiss (with_toasts (fun _ => []) w)).

Definition console_error (msg : string) (e : Thrown) : Prog unit :=
  effect (emit (EConsoleError msg e)).

Definition localStorage_removeItem (key : string) : Prog unit :=
  effect (fun w =>
    emit (EStorageRemove key) (with_localStorage (delete key) w)).

Definition navigate (to : string) : Prog unit :=
  effect (fun w => emit (ENavigate to) (with_location to w)).

Definition axiosInstance_get (url : string) : Axios.Request :=
  {| Axios.method := "GET"; Axios.path := url |}.

(** ** The component *)

(** The arguments of the four [useState] calls. *)
Definition initial_state : ViewState :=
  {| university := JNull;
     examStats :=
       object [("totalExams", JNum 0%float);
               ("studentsAssigned", JNum 0%float);
               ("studentsAttended", JNum 0%float)];
     loading := false;
     sidebarOpen := false |}.

Definition fetchUniversityData : Prog unit :=
  try_catch_finally
    (setLoading true;;
     toast_loading "Fetching university data...";;
     response ← await (axiosInstance_get "/university/profile");
     setUniversity (Axios.data response);;
     toast_dismiss;;
     toast_success "University data loaded!")
    (fun error =>
     console_error "Error fetching university data:" error;;
     toast_dismiss;;
     toast_error "Failed to load university data")
    (setLoading false).

Definition fetchExamStats : Prog unit :=
  try_catch_finally
    (setLoading true;;
     toast_loading "Fetching exam statistics...";;
     response ← await (axiosInstance_get "/university/exam/stats");
     setExamStats (Axios.data response);;
     toast_dismiss;;
     toast_success "Exam stats loaded!")
    (fun error =>
     console_error "Error fetching exam stats:" error;;
     toast_dismiss;;
     toast_error "Failed to load exam stats")
    (setLoading false).

Definition handleLogout : Prog unit :=
  localStorage_removeItem "token";;
  toast_success "Logged out successfully!";;
  navigate "/login".

(** [onClick={() => setSidebarOpen(!sidebarOpen)}] of the toggle button. *)
Definition onClick_sidebarToggle : Prog unit :=
  fun w => setSidebarOpen (negb (sidebarOpen (state w))) w.

Record SidebarItem : Type :=
  { name : string; item_path : string; active : bool }.

Definition sidebarItems : list SidebarItem :=
  [ {| name := "Dashboard"; item_path := "/university/dashboard";
       active := true |};
    {| name := "Exams"; item_path := "/university/exams"; active := false |};
    {| name := "Students"; item_path := "/university/students";
       active := false |};
    {| name := "Profile"; item_path := "/university/profile";
       active := false |} ].

(** ** What the component renders *)

(** The [data] and [options] props of the [Bar] chart. *)
Module Chart.

Record Dataset : Type := {
  label : string;
  data : list JsValue;
  backgroundColor : list string;
  borderColor : list string;
  borderWidth : float
}.

Record Data : Type := { labels : list string; datasets : list Dataset }.

Record Font : Type := { size : float; weight : string }.

Record Title : Type :=
  { display : bool; text : string; font : option Font }.

Record Legend : Type := { position : string }.

Record Plugins : Type := { legend : Legend; title : Title }.

Record Axis : Type := { beginAtZero : bool; axis_title : Title }.

Record Scales : Type := { y : Axis }.

Record Options : Type :=
  { responsive : bool; plugins : Plugins; scales : Scales }.

End Chart.

(** [chartData]: the three reads of [examStats] happen left to right, and
    a read on [null] or [undefined] throws. *)
Definition chartData (examStats : JsValue) : Completion Chart.Data :=
  totalExams ← member examStats P_totalExams;
  studentsAssigned ← member examStats P_studentsAssigned;
  studentsAttended ← member examStats P_studentsAttended;
  mret
    {| Chart.labels :=
         ["Total Exams"; "Students Assigned"; "Students Attended"];
       Chart.datasets :=
         [ {| Chart.label := "Exam Statistics";
              Chart.data := [totalExams; studentsAssigned; studentsAttended];
              Chart.backgroundColor := ["#10B981"; "#FBBF24"; "#3B82F6"];
              Chart.borderColor := ["#059669"; "#F59E0B"; "#2563EB"];
              Chart.borderWidth := 1%float |} ] |}.

Definition chartOptions : Chart.Options :=
  {| Chart.responsive := true;
     Chart.plugins :=
       {| Chart.legend := {| Chart.position := "top" |};
          Chart.title :=
            {| Chart.display := true;
               Chart.text := "Exam Statistics Overview";
               Chart.font :=
                 Some {| Chart.size := 18%float; Chart.weight := "bold" |} |}
       |};
     Chart.scales :=
       {| Chart.y :=
            {| Chart.beginAtZero := true;
               Chart.axis_title :=
                 {| Chart.display := true; Chart.text := "Count";
                    Chart.font := None |} |} |} |}.

(** The profile card: [university ? <fields/> : <p>Loading...</p>]. *)
Inductive ProfileCard : Type :=
| ProfileFields (logoSrc name email : JsValue)
| ProfilePlaceholder (text : string).

Definition universityInfo (university : JsValue) : Completion ProfileCard :=
  if truthy university then
    universityLogo ← member university P_universityLogo;
    secure_url ← opt_member universityLogo P_secure_url;
    universityName ← member university P_universityName;
    universityEmail ← member university P_universityEmail;
    mret (ProfileFields
            (or_else secure_url (JStr "https://via.placeholder.com/64"))
            universityName universityEmail)
  else
    mret (ProfilePlaceholder "Loading university data...").

(** The three counters next to the chart. *)
Definition statCards (examStats : JsValue)
  : Completion (list (string * JsValue)) :=
  totalExams ← member examStats P_totalExams;
  studentsAssigned ← member examStats P_studentsAssigned;
  studentsAttended ← member examStats P_studentsAttended;
  mret [("Total Exams", totalExams);
        ("Students Assigned", studentsAssigned);
        ("Students Attended", studentsAttended)].

Record View : Type := {
  sidebarClass : string;
  profile : ProfileCard;
  stats : list (string * JsValue);
  bar_data : Chart.Data;
  bar_options : Chart.Options
}.

(** The body of the component for one render: [chartData] is built before
    the JSX is.  [sidebarClass] is the part of the panel's class name that
    depends on the state.  The [loading] cell is never read. *)
Definition render (s : ViewState) : Completion View :=
  cd ← chartData (examStats s);
  card ← universityInfo (university s);
  cards ← statCards (examStats s);
  mret
    {| sidebarClass :=
         if sidebarOpen s then "translate-x-0"
         else "-translate-x-full md:translate-x-0";
       profile := card;
       stats := cards;
       bar_data := cd;
       bar_options := chartOptions |}.

(** ** The event loop *)

(** The component's world together with the requests in flight, each with
    the continuation of the async function that awaits it, and the errors
    that escaped an async function whose promise nobody awaits. *)
Record Runtime : Type := {
  world : World;
  in_flight :
    list (Axios.Request * (Axios.Settlement -> World -> Step unit));
  unhandled : list Thrown
}.

Definition absorb (s : Step unit)
  (tasks : list (Axios.Request * (Axios.Settlement -> World -> Step unit)))
  (errs : list Thrown) : Runtime :=
  match s with
  | Finished (Normal _) w =>
      {| world := w; in_flight := tasks; unhandled := errs |}
  | Finished (Throw e) w =>
      {| world := w; in_flight := tasks; unhandled := errs ++ [e] |}
  | Suspended r w k =>
      {| world := w; in_flight := tasks ++ [(r, k)]; unhandled := errs |}
  end.

(** Calling an async function (or a handler) without awaiting it: it runs
    up to its first [await]. *)
Definition call (f : Prog unit) (rt : Runtime) : Runtime :=
  absorb (f (world rt)) (in_flight rt) (unhandled rt).

(** The oldest request in flight to [url], taken out of the list. *)
Fixpoint take_request (url : string)
  (tasks : list (Axios.Request * (Axios.Settlement -> World -> Step unit)))
  : option ((Axios.Settlement -> World -> Step unit) *
            list (Axios.Request * (Axios.Settlement -> World -> Step unit))) :=
  match tasks with
  | [] => None
  | (r, k) :: rest =>
      if bool_decide (Axios.path r = url) then Some (k, rest)
      else
        match take_request url rest with
        | Some (k', rest') => Some (k', (r, k) :: rest')
        | None => None
        end
  end.

(** The request to [url] settles: the function awaiting it resumes. *)
Definition settle (url : string) (o : Axios.Settlement) (rt : Runtime)
  : Runtime :=
  match take_request url (in_flight rt) with
  | Some (k, rest) => absorb (k o (world rt)) rest (unhandled rt)
  | None => rt
  end.

Definition pending (rt : Runtime) : list string :=
  map (fun t => Axios.path (fst t)) (in_flight rt).

(** [useEffect(() => { fetchUniversityData(); fetchExamStats(); }, [])] *)
Definition useEffect_mount (rt : Runtime) : Runtime :=
  call fetchExamStats (call fetchUniversityData rt).

(** The component right after its first render, before its effect runs. *)
Definition initial_world (storage : gmap string string) (at_ : string)
  : World :=
  {| state := initial_state; toasts := []; localStorage := storage;
     location := at_; trace := [] |}.

Definition initial_runtime (storage : gmap string string) (at_ : string)
  : Runtime :=
  {| world := initial_world storage at_; in_flight := []; unhandled := [] |}.

(** ** One invocation of an async function *)

Definition step_world {A} (s : Step A) : World :=
  match s with
  | Finished _ w => w
  | Suspended _ w _ => w
  end.

(** How a step completed; [None] while it is suspended. *)
Definition completion {A} (s : Step A) : option (Completion A) :=
  match s with
  | Finished c _ => Some c
  | Suspended _ _ _ => None
  end.

Definition awaited {A} (s : Step A) : option Axios.Request :=
  match s with
  | Finished _ _ => None
  | Suspended r _ _ => Some r
  end.

(** An invocation from the call to the return: the function runs from [w]
    to its [await]; while the request is in flight the rest of the
    application turns the world into [between w1] (any function: the other
    fetcher, clicks, nothing at all); then the function resumes with the
    settlement [o]. *)
Record Run : Type := {
  suspended_at : World;
  resumed_at : World;
  outcome : Step unit
}.

Definition run (f : Prog unit) (w : World) (between : World -> World)
  (o : Axios.Settlement) : Run :=
  match f w with
  | Suspended _ w1 k =>
      {| suspended_at := w1; resumed_at := between w1;
         outcome := k o (between w1) |}
  | Finished c w1 =>
      {| suspended_at := w1; resumed_at := w1; outcome := Finished c w1 |}
  end.

Definition final (r : Run) : World := step_world (outcome r).

(** The events recorded after [w] up to [w']. *)
Definition events_between (w w' : World) : list Event :=
  drop (length (trace w)) (trace w').

(** The events of the invocation itself, before and after its [await]. *)
Definition events_before_await (w : World) (r : Run) : list Event :=
  events_between w (suspended_at r).

Definition events_after_await (r : Run) : list Event :=
  events_between (resumed_at r) (final r).

Definition run_events (w : World) (r : Run) : list Event :=
  events_before_await w r ++ events_after_await r.

(** The notification calls among the events. *)
Inductive Notification : Type :=
| NLoading
| NDismissAll
| NSuccess
| NError.

#[global] Instance Notification_eq_dec : EqDecision Notification.
Proof. solve_decision. Defined.

Definition notification (e : Event) : option Notification :=
  match e with
  | EToastLoading _ => Some NLoading
  | EToastDismiss => Some NDismissAll
  | EToastSuccess _ => Some NSuccess
  | EToastError _ => Some NError
  | _ => None
  end.

Definition notifications (tr : list Event) : list Notification :=
  omap notification tr.

Definition is_request (e : Event) : bool :=
  match e with
  | ERequest _ => true
  | _ => false
  end.

Definition is_loading_toast (t : Toast) : bool :=
  bool_decide (kind t = Loading).

(** The two fetch operations and the state cell each one feeds. *)
Inductive Fetcher : Type := ProfileFetcher | StatsFetcher.

Definition fetcher (f : Fetcher) : Prog unit :=
  match f with
  | ProfileFetcher => fetchUniversityData
  | StatsFetcher => fetchExamStats
  end.

Definition slice (f : Fetcher) (s : ViewState) : JsValue :=
  match f with
  | ProfileFetcher => university s
  | StatsFetcher => examStats s
  end.

Definition other_slice (f : Fetcher) (s : ViewState) : JsValue :=
  match f with
  | ProfileFetcher => examStats s
  | StatsFetcher => university s
  end.

Definition endpoint (f : Fetcher) : string :=
  match f with
  | ProfileFetcher => "/university/profile"
  | StatsFetcher => "/university/exam/stats"
  end.

Definition other (f : Fetcher) : Fetcher :=
  match f with
  | ProfileFetcher => StatsFetcher
  | StatsFetcher => ProfileFetcher
  end.

(** The three bars of the chart and the field each one reads. *)
Inductive Category : Type := TotalExams | StudentsAssigned | StudentsAttended.

Definition category_field (c : Category) : PropName :=
  match c with
  | TotalExams => P_totalExams
  | StudentsAssigned => P_studentsAssigned
  | StudentsAttended => P_studentsAttended
  end.

Definition category_index (c : Category) : nat :=
  match c with
  | TotalExams => 0
  | StudentsAssigned => 1
  | StudentsAttended => 2
  end.

(** The value of a bar in the chart derived from [stats]; [None] when
    there is none (no chart could be derived). *)
Definition chart_value (stats : JsValue) (c : Category) : option JsValue :=
  match chartData stats with
  | Normal cd =>
      match Chart.datasets cd with
      | ds :: _ => Chart.data ds !! category_index c
      | [] => None
      end
  | Throw _ => None
  end.

(** A runtime with nothing in flight. *)
Definition idle (w : World) : Runtime :=
  {| world := w; in_flight := []; unhandled := [] |}.

(** Whatever else happens to the world while requests are in flight. *)
Definition interfere (g : World -> World) (rt : Runtime) : Runtime :=
  {| world := g (world rt); in_flight := in_flight rt;
     unhandled := unhandled rt |}.

(** ** What React puts on screen *)

(** The children of a host element.  React turns strings and numbers
    into text, shows nothing for booleans, [null] and [undefined], goes
    through arrays element by element, and refuses a plain object
    ("Objects are not valid as a React child"): [None]. *)
#[warnings="-register-all"]
Fixpoint text_nodes (v : JsValue) : option (list JsValue) :=
  match v with
  | JUndefined | JNull | JBool _ => Some []
  | JNum _ | JStr _ => Some [v]
  | JArr xs =>
      (fix go (xs : list JsValue) : option (list JsValue) :=
         match xs with
         | [] => Some []
         | x :: rest =>
             match text_nodes x, go rest with
             | Some a, Some b => Some (a ++ b)
             | _, _ => None
             end
         end) xs
  | JObj _ => None
  end.

Definition renderable (v : JsValue) : bool :=
  match text_nodes v with
  | Some _ => true
  | None => false
  end.

(** Why the component shows nothing: its function threw, or React met a
    child it refuses.  No error boundary is set up in this file. *)
Inductive Crash : Type :=
| RenderThrew (e : Thrown)
| InvalidChild (v : JsValue).

Inductive Mounted (A : Type) : Type :=
| Shown (a : A)
| Crashed (c : Crash).
Arguments Shown {A} a.
Arguments Crashed {A} c.

#[global] Instance Mounted_ret : MRet Mounted := @Shown.
#[global] Instance Mounted_bind : MBind Mounted :=
  fun A B f m =>
    match m with
    | Shown a => f a
    | Crashed c => Crashed c
    end.

Definition children (v : JsValue) : Mounted (list JsValue) :=
  match text_nodes v with
  | Some nodes => Shown nodes
  | None => Crashed (InvalidChild v)
  end.

(** The profile card on screen: the logo source goes into an attribute,
    the name and the email are children of [h2] and [p]. *)
Inductive ShownCard : Type :=
| ShownFields (logoSrc : JsValue) (name_text email_text : list JsValue)
| ShownPlaceholder (text : string).

Definition show_card (c : ProfileCard) : Mounted ShownCard :=
  match c with
  | ProfileFields logoSrc universityName universityEmail =>
      name_text ← children universityName;
      email_text ← children universityEmail;
      mret (ShownFields logoSrc name_text email_text)
  | ProfilePlaceholder text => mret (ShownPlaceholder text)
  end.

Fixpoint show_counters (cards : list (string * JsValue))
  : Mounted (list (string * list JsValue)) :=
  match cards with
  | [] => mret []
  | (heading, v) :: rest =>
      nodes ← children v;
      shown ← show_counters rest;
      mret ((heading, nodes) :: shown)
  end.

Record Screen : Type := {
  panelClass : string;
  card : ShownCard;
  counters : list (string * list JsValue);
  chart_data : Chart.Data;
  chart_options : Chart.Options
}.

(** One render as the user sees it: the component function runs, then
    React mounts what it returned, the profile card before the counters;
    the chart receives its props as they are. *)
Definition display (s : ViewState) : Mounted Screen :=
  match render s with
  | Throw e => Crashed (RenderThrew e)
  | Normal v =>
      c ← show_card (profile v);
      cs ← show_counters (stats v);
      mret {| panelClass := sidebarClass v; card := c; counters := cs;
              chart_data := bar_data v; chart_options := bar_options v |}
  end.

(** The states in which the component shows something: [examStats] can
    be read, and no value placed as a child is or contains an object. *)
Definition displayable (s : ViewState) : bool :=
  negb (nullish (examStats s)) &&
  (if truthy (university s) then
     renderable (property (university s) P_universityName) &&
     renderable (property (university s) P_universityEmail)
   else true) &&
  renderable (property (examStats s) P_totalExams) &&
  renderable (property (examStats s) P_studentsAssigned) &&
  renderable (property (examStats s) P_studentsAttended).

(** ** The remaining handlers *)

(** [onClick={() => navigate(item.path)}] of an entry of the panel. *)
Definition onClick_sidebarItem (item : SidebarItem) : Prog unit :=
  navigate (item_path item).

(** The buttons Edit Profile, Manage Exams and View Students. *)
Definition onClick_editProfile : Prog unit := navigate "/university/profile".

Definition onClick_manageExams : Prog unit := navigate "/university/exams".

Definition onClick_viewStudents : Prog unit :=
  navigate "/university/students".

(** [n] clicks on the toggle button, one after the other. *)
Fixpoint clicks (n : nat) (w : World) : World :=
  match n with
  | O => w
  | S n' => step_world (onClick_sidebarToggle (clicks n' w))
  end.

(** The [src] of the logo, when the card shows the profile fields. *)
Definition logo_src (c : ProfileCard) : option JsValue :=
  match c with
  | ProfileFields logoSrc _ _ => Some logoSrc
  | ProfilePlaceholder _ => None
  end.

(** The settlement of the request of each fetcher. *)
Definition settlement_of (oP oS : Axios.Settlement) (f : Fetcher)
  : Axios.Settlement :=
  match f with
  | ProfileFetcher => oP
  | StatsFetcher => oS
  end.

(** The component from its mount to the settlement of both requests, the
    request of [first] settling first. *)
Definition lifecycle (w : World) (first : Fetcher)
  (oP oS : Axios.Settlement) : Runtime :=
  settle (endpoint (other first)) (settlement_of oP oS (other first))
    (settle (endpoint first) (settlement_of oP oS first)
       (useEffect_mount (idle w))).


Definition result_notification (o : Axios.Settlement) : Notification :=
  match o with
  | Axios.Fulfilled _ => NSuccess
  | Axios.Rejected _ => NError
  end.

(** * Properties *)

(** ** Basic facts *)

Section Traces.

Variables (w w' : World).

Lemma events_between_app (es : list Event) :
  trace w' = trace w ++ es -> events_between w w' = es.
Proof.
  unfold events_between. intros ->. apply drop_app_length.
Qed.

End Traces.

Section Finally.

(** [finally] is a guaranteed cleanup: when a function of the shape
    [try { body } catch (e) { h e } finally { g }] returns or throws,
    before or after its [await], the effect [g] is the last thing that
    happened to the world. *)
Variable g : World -> World.

Lemma finally_step_effect {A} (s : Step A) :
  match finally_step s (effect g) with
  | Finished c wf => exists w0, s = Finished c w0 /\ wf = g w0
  | Suspended r w1 k =>
      exists k0, s = Suspended r w1 k0 /\
        forall o w2, k o w2 = finally_step (k0 o w2) (effect g)
  end.
Proof.
  destruct s as [c w0|r w1 k0]; simpl.
  - exists w0. split; reflexivity.
  - exists k0. split; [reflexivity|]. intros o w2. reflexivity.
Qed.

Variables (body : Prog unit) (h : Thrown -> Prog unit).

Lemma finally_runs_last (w : World) (between : World -> World)
  (o : Axios.Settlement) (c : Completion unit) :
  completion
    (outcome (run (try_catch_finally body h (effect g)) w between o)) =
    Some c ->
  exists w0,
    final (run (try_catch_finally body h (effect g)) w between o) = g w0.
Proof.
  unfold final, run, try_catch_finally.
  pose proof (finally_step_effect (catch_step (body w) h)) as Hs.
  destruct (finally_step (catch_step (body w) h) (effect g))
    as [c' w'|r w1 k]; simpl.
  - destruct Hs as [w0 [_ ->]]. intros _. exists w0. reflexivity.
  - destruct Hs as [k0 [_ Hk]]. rewrite Hk. intros Hfin.
    pose proof (finally_step_effect (k0 o (between w1))) as Hs2.
    destruct (finally_step (k0 o (between w1)) (effect g))
      as [c1 wf1|r1 w3 k1].
    + destruct Hs2 as [w0 [_ ->]]. exists w0. reflexivity.
    + discriminate Hfin.
Qed.

End Finally.

(** Truthiness of the values an object or array literal denotes. *)
Lemma truthy_not_nullish (v : JsValue) : truthy v = true -> nullish v = false.
Proof. destruct v; simpl; congruence. Qed.

Lemma member_defined (v : JsValue) (p : PropName) :
  nullish v = false -> member v p = Normal (property v p).
Proof. unfold member. intros ->. reflexivity. Qed.

Lemma member_nullish (v : JsValue) (p : PropName) :
  nullish v = true -> member v p = Throw (TypeError v p).
Proof. unfold member. intros ->. reflexivity. Qed.

Lemma property_missing (v : JsValue) (p : PropName) :
  has_own v p = false -> property v p = JUndefined.
Proof.
  destruct v as [| | | | | |fields]; try reflexivity.
  simpl. intros Hown. apply bool_decide_eq_false in Hown.
  destruct (fields !! prop_key p) as [x|] eqn:E; [|reflexivity].
  exfalso. apply Hown. exists x. reflexivity.
Qed.

(** The profile card never throws: its reads are guarded by the
    truthiness test and by [?.]. *)
Lemma universityInfo_truthy (u : JsValue) :
  truthy u = true ->
  universityInfo u =
  Normal (ProfileFields
            (or_else
               (if nullish (property u P_universityLogo) then JUndefined
                else property (property u P_universityLogo) P_secure_url)
               (JStr "https://via.placeholder.com/64"))
            (property u P_universityName)
            (property u P_universityEmail)).
Proof.
  intros Ht. unfold universityInfo. rewrite Ht.
  pose proof (truthy_not_nullish u Ht) as Hn.
  rewrite !(member_defined u) by exact Hn. simpl.
  unfold opt_member, member.
  destruct (nullish (property u P_universityLogo)); reflexivity.
Qed.

Lemma universityInfo_falsy (u : JsValue) :
  truthy u = false ->
  universityInfo u = Normal (ProfilePlaceholder "Loading university data...").
Proof. intros Hf. unfold universityInfo. rewrite Hf. reflexivity. Qed.

Lemma chartData_defined (stats : JsValue) :
  nullish stats = false ->
  chartData stats =
  Normal
    {| Chart.labels :=
         ["Total Exams"; "Students Assigned"; "Students Attended"];
       Chart.datasets :=
         [ {| Chart.label := "Exam Statistics";
              Chart.data :=
                [property stats P_totalExams;
                 property stats P_studentsAssigned;
                 property stats P_studentsAttended];
              Chart.backgroundColor := ["#10B981"; "#FBBF24"; "#3B82F6"];
              Chart.borderColor := ["#059669"; "#F59E0B"; "#2563EB"];
              Chart.borderWidth := 1%float |} ] |}.
Proof.
  intros Hn. unfold chartData. rewrite !member_defined by exact Hn.
  reflexivity.
Qed.

Lemma chartData_nullish (stats : JsValue) :
  nullish stats = true ->
  chartData stats = Throw (TypeError stats P_totalExams).
Proof.
  intros Hn. unfold chartData.
  rewrite (member_nullish stats P_totalExams Hn). reflexivity.
Qed.

Lemma statCards_defined (stats : JsValue) :
  nullish stats = false ->
  statCards stats =
  Normal [("Total Exams", property stats P_totalExams);
          ("Students Assigned", property stats P_studentsAssigned);
          ("Students Attended", property stats P_studentsAttended)].
Proof.
  intros Hn. unfold statCards. rewrite !member_defined by exact Hn.
  reflexivity.
Qed.

(** What the component function returns when [examStats] can be read. *)
Lemma render_returns (s : ViewState) :
  nullish (examStats s) = false ->
  exists c,
    universityInfo (university s) = Normal c /\
    render s =
    Normal
      {| sidebarClass :=
           if sidebarOpen s then "translate-x-0"
           else "-translate-x-full md:translate-x-0";
         profile := c;
         stats :=
           [("Total Exams", property (examStats s) P_totalExams);
            ("Students Assigned", property (examStats s) P_studentsAssigned);
            ("Students Attended", property (examStats s) P_studentsAttended)];
         bar_data :=
           {| Chart.labels :=
                ["Total Exams"; "Students Assigned"; "Students Attended"];
              Chart.datasets :=
                [ {| Chart.label := "Exam Statistics";
                     Chart.data :=
                       [property (examStats s) P_totalExams;
                        property (examStats s) P_studentsAssigned;
                        property (examStats s) P_studentsAttended];
                     Chart.backgroundColor :=
                       ["#10B981"; "#FBBF24"; "#3B82F6"];
                     Chart.borderColor := ["#059669"; "#F59E0B"; "#2563EB"];
                     Chart.borderWidth := 1%float |} ] |};
         bar_options := chartOptions |}.
Proof.
  intros Hn. unfold render.
  rewrite (chartData_defined _ Hn), (statCards_defined _ Hn).
  destruct (truthy (university s)) eqn:Ht.
  - rewrite (universityInfo_truthy _ Ht). eexists. split; reflexivity.
  - rewrite (universityInfo_falsy _ Ht). eexists. split; reflexivity.
Qed.

Lemma children_renderable (v : JsValue) :
  children v =
  if renderable v then Shown (default [] (text_nodes v))
  else Crashed (InvalidChild v).
Proof.
  unfold children, renderable. destruct (text_nodes v); reflexivity.
Qed.

(** The counters are mounted one after the other; the first value React
    refuses stops the render. *)
Lemma show_counters_spec (cards : list (string * JsValue)) :
  if forallb (fun c => renderable (snd c)) cards then
    show_counters cards =
    Shown (map (fun c => (fst c, default [] (text_nodes (snd c)))) cards)
  else
    exists v,
      show_counters cards = Crashed (InvalidChild v) /\
      renderable v = false /\ In v (map snd cards).
Proof.
  induction cards as [|[heading v] rest IH]; [reflexivity|].
  cbn [forallb show_counters snd fst map]. rewrite children_renderable.
  destruct (renderable v) eqn:Hv.
  - cbn [andb mbind Mounted_bind].
    destruct (forallb (fun c => renderable (snd c)) rest).
    + rewrite IH. reflexivity.
    + destruct IH as [v' [-> [Hv' Hin]]].
      exists v'. split; [reflexivity|]. split; [exact Hv'|right; exact Hin].
  - exists v. split; [reflexivity|]. split; [exact Hv|left; reflexivity].
Qed.

Lemma show_card_spec (c : ProfileCard) :
  match c with
  | ProfileFields logoSrc n e =>
      if renderable n && renderable e then
        show_card c =
        Shown (ShownFields logoSrc (default [] (text_nodes n))
                 (default [] (text_nodes e)))
      else
        exists v,
          show_card c = Crashed (InvalidChild v) /\ renderable v = false
  | ProfilePlaceholder text => show_card c = Shown (ShownPlaceholder text)
  end.
Proof.
  destruct c as [logoSrc n e|text]; [|reflexivity].
  cbn [show_card]. rewrite !children_renderable.
  destruct (renderable n) eqn:Hn.
  - destruct (renderable e) eqn:He; [reflexivity|].
    exists e. split; [reflexivity|exact He].
  - exists n. split; [reflexivity|exact Hn].
Qed.

Lemma text_nodes_renderable (v : JsValue) :
  renderable v = true -> text_nodes v = Some (default [] (text_nodes v)).
Proof.
  unfold renderable. destruct (text_nodes v); [reflexivity|discriminate].
Qed.

(** In a displayable state the component shows the card of [university],
    the text of the three counters and hands the chart its props. *)
Lemma display_shown (s : ViewState) :
  displayable s = true ->
  exists scr,
    display s = Shown scr /\
    panelClass scr =
      (if sidebarOpen s then "translate-x-0"
       else "-translate-x-full md:translate-x-0") /\
    match card scr with
    | ShownFields logoSrc name_text email_text =>
        truthy (university s) = true /\
        universityInfo (university s) =
          Normal (ProfileFields logoSrc
                    (property (university s) P_universityName)
                    (property (university s) P_universityEmail)) /\
        text_nodes (property (university s) P_universityName) =
          Some name_text /\
        text_nodes (property (university s) P_universityEmail) =
          Some email_text
    | ShownPlaceholder text =>
        truthy (university s) = false /\
        text = "Loading university data..."
    end /\
    map Some (map snd (counters scr)) =
      [text_nodes (property (examStats s) P_totalExams);
       text_nodes (property (examStats s) P_studentsAssigned);
       text_nodes (property (examStats s) P_studentsAttended)] /\
    map fst (counters scr) =
      ["Total Exams"; "Students Assigned"; "Students Attended"] /\
    chartData (examStats s) = Normal (chart_data scr) /\
    chart_options scr = chartOptions.
Proof.
  unfold displayable. intros Hd.
  apply andb_prop in Hd as [Hd H3]. apply andb_prop in Hd as [Hd H2].
  apply andb_prop in Hd as [Hd H1]. apply andb_prop in Hd as [Hn Hu].
  apply negb_true_iff in Hn.
  destruct (render_returns s Hn) as [c [Hc Hr]].
  unfold display. rewrite Hr.
  cbn [profile stats sidebarClass bar_data bar_options].
  rewrite (chartData_defined _ Hn).
  pose proof (show_counters_spec
    [("Total Exams", property (examStats s) P_totalExams);
     ("Students Assigned", property (examStats s) P_studentsAssigned);
     ("Students Attended", property (examStats s) P_studentsAttended)])
    as Hcs.
  cbn [forallb snd fst map] in Hcs. rewrite H1, H2, H3 in Hcs.
  cbn [andb] in Hcs. rewrite Hcs.
  pose proof (show_card_spec c) as Hcard.
  destruct (truthy (university s)) eqn:Ht.
  - rewrite (universityInfo_truthy _ Ht) in Hc. injection Hc as <-.
    rewrite Hu in Hcard. rewrite Hcard.
    apply andb_prop in Hu as [Hname Hemail].
    eexists. split; [reflexivity|]. cbn.
    rewrite (universityInfo_truthy _ Ht),
      <- !text_nodes_renderable by assumption.
    repeat split.
  - rewrite (universityInfo_falsy _ Ht) in Hc. injection Hc as <-.
    rewrite Hcard. eexists. split; [reflexivity|]. cbn.
    rewrite <- !text_nodes_renderable by assumption. repeat split.
Qed.

(** In every other state the component shows nothing: its function throws
    on the read of [totalExams], or React refuses a child. *)
Lemma display_crashed (s : ViewState) :
  displayable s = false ->
  exists c,
    display s = Crashed c /\
    match c with
    | RenderThrew e =>
        nullish (examStats s) = true /\
        e = TypeError (examStats s) P_totalExams
    | InvalidChild v =>
        nullish (examStats s) = false /\ renderable v = false
    end.
Proof.
  unfold displayable. intros Hd.
  destruct (nullish (examStats s)) eqn:Hn.
  - unfold display, render. rewrite (chartData_nullish _ Hn).
    eexists. split; [reflexivity|]. split; reflexivity.
  - cbn [negb andb] in Hd.
    destruct (render_returns s Hn) as [c [Hc Hr]].
    unfold display. rewrite Hr.
    cbn [profile stats sidebarClass bar_data bar_options].
    pose proof (show_counters_spec
      [("Total Exams", property (examStats s) P_totalExams);
       ("Students Assigned", property (examStats s) P_studentsAssigned);
       ("Students Attended", property (examStats s) P_studentsAttended)])
      as Hcs.
    cbn [forallb snd fst map] in Hcs. rewrite andb_true_r, andb_assoc in Hcs.
    pose proof (show_card_spec c) as Hcard.
    assert (Hcases :
      (exists v, show_card c = Crashed (InvalidChild v) /\
                 renderable v = false) \/
      (exists sc, show_card c = Shown sc /\
         renderable (property (examStats s) P_totalExams) &&
         renderable (property (examStats s) P_studentsAssigned) &&
         renderable (property (examStats s) P_studentsAttended) = false)).
    { destruct (truthy (university s)) eqn:Ht.
      - rewrite (universityInfo_truthy _ Ht) in Hc. injection Hc as <-.
        destruct (renderable (property (university s) P_universityName) &&
                  renderable (property (university s) P_universityEmail)).
        + right. eexists. split; [exact Hcard|exact Hd].
        + left. exact Hcard.
      - rewrite (universityInfo_falsy _ Ht) in Hc. injection Hc as <-.
        right. eexists. split; [exact Hcard|exact Hd]. }
    destruct Hcases as [[v [-> Hv]]|[sc [-> Hst]]].
    + exists (InvalidChild v). split; [reflexivity|]. split; [reflexivity|exact Hv].
    + rewrite Hst in Hcs. destruct Hcs as [v [Hshow [Hv _]]].
      cbn [mbind Mounted_bind]. rewrite Hshow.
      exists (InvalidChild v). split; [reflexivity|].
      split; [reflexivity|exact Hv].
Qed.

(** Closes [events_between w w' = es] when the trace of [w'] is the trace
    of [w] followed by the events of some effects. *)
Ltac events :=
  apply events_between_app; simpl; rewrite <- ?app_assoc; reflexivity.

(** ** Initial state and first render *)

(** C10: before the mount effect has run, no request is in flight and
    nothing has been recorded; [loading] is false, [university] is [null],
    [sidebarOpen] is false and the three counters of [examStats] are 0; the
    first render shows the profile placeholder and the chart values
    [0, 0, 0].  The flag only becomes true once the effect has started the
    two fetches. *)
Theorem initial_render_shows_defaults (storage : gmap string string)
  (at_ : string) :
  let rt := initial_runtime storage at_ in
  let s := state (world rt) in
  pending rt = [] /\
  trace (world rt) = [] /\
  loading s = false /\
  university s = JNull /\
  sidebarOpen s = false /\
  property (examStats s) P_totalExams = JNum 0%float /\
  property (examStats s) P_studentsAssigned = JNum 0%float /\
  property (examStats s) P_studentsAttended = JNum 0%float /\
  (exists v,
     render s = Normal v /\
     profile v = ProfilePlaceholder "Loading university data..." /\
     map Chart.data (Chart.datasets (bar_data v)) =
       [[JNum 0%float; JNum 0%float; JNum 0%float]]) /\
  loading (state (world (useEffect_mount rt))) = true.
Proof.
  cbn zeta.
  repeat match goal with |- _ /\ _ => split end;
    try reflexivity; try (vm_compute; reflexivity).
  eexists. split; [vm_compute; reflexivity|]. split; reflexivity.
Qed.

(** ** The chart *)

(** C2 (as stated) fails when [examStats] is [null]: a 200 response of the
    statistics endpoint with the body [null] puts [null] into the state,
    and the first read of [chartData] throws, so no chart input exists. *)
Lemma chartData_throws_on_null_stats :
  let r :=
    run fetchExamStats (initial_world ∅ "/university/dashboard") id
      (Axios.Fulfilled {| Axios.data := JNull; Axios.status := 200 |}) in
  examStats (state (final r)) = JNull /\
  chartData (examStats (state (final r))) =
    Throw (TypeError JNull P_totalExams) /\
  ~ (exists cd, chartData (examStats (state (final r))) = Normal cd).
Proof.
  cbn zeta. split; [reflexivity|]. split; [reflexivity|].
  intros [cd Hcd]. discriminate Hcd.
Qed.

(** C2 (amended): for every state whose [examStats] is neither [null] nor
    [undefined], the chart input is exactly this: the three labels Total
    Exams, Students Assigned, Students Attended, in that order, and one
    dataset, labelled "Exam Statistics", whose three values are
    [totalExams], [studentsAssigned], [studentsAttended] of [examStats]
    ([undefined] for a field it lacks), with the background colours
    #10B981, #FBBF24, #3B82F6, the border colours #059669, #F59E0B,
    #2563EB and border width 1.  The component function hands it to the
    chart together with the fixed options, whose title is "Exam Statistics
    Overview" and whose axis label is "Count".  Nothing but [examStats]
    enters the chart input. *)
Theorem chartData_three_categories (s : ViewState) :
  nullish (examStats s) = false ->
  let cd :=
    {| Chart.labels :=
         ["Total Exams"; "Students Assigned"; "Students Attended"];
       Chart.datasets :=
         [ {| Chart.label := "Exam Statistics";
              Chart.data :=
                [property (examStats s) P_totalExams;
                 property (examStats s) P_studentsAssigned;
                 property (examStats s) P_studentsAttended];
              Chart.backgroundColor := ["#10B981"; "#FBBF24"; "#3B82F6"];
              Chart.borderColor := ["#059669"; "#F59E0B"; "#2563EB"];
              Chart.borderWidth := 1%float |} ] |} in
  chartData (examStats s) = Normal cd /\
  (exists v,
     render s = Normal v /\ bar_data v = cd /\
     bar_options v = chartOptions) /\
  Chart.responsive chartOptions = true /\
  Chart.title (Chart.plugins chartOptions) =
    {| Chart.display := true; Chart.text := "Exam Statistics Overview";
       Chart.font :=
         Some {| Chart.size := 18%float; Chart.weight := "bold" |} |} /\
  Chart.y (Chart.scales chartOptions) =
    {| Chart.beginAtZero := true;
       Chart.axis_title :=
         {| Chart.display := true; Chart.text := "Count";
            Chart.font := None |} |}.
Proof.
  intros Hn cd.
  split; [apply chartData_defined; exact Hn|].
  split; [|repeat split].
  destruct (render_returns s Hn) as [c [_ Hr]].
  rewrite Hr. eexists. split; [reflexivity|]. split; reflexivity.
Qed.

Lemma chartData_three_categories_witness :
  let s :=
    {| university := JNull;
       examStats :=
         object [("totalExams", JNum 5%float);
                 ("studentsAssigned", JNum 40%float);
                 ("studentsAttended", JNum 38%float)];
       loading := false; sidebarOpen := false |} in
  nullish (examStats s) = false /\
  exists cd,
    chartData (examStats s) = Normal cd /\
    Chart.labels cd =
      ["Total Exams"; "Students Assigned"; "Students Attended"] /\
    map Chart.data (Chart.datasets cd) =
      [[JNum 5%float; JNum 40%float; JNum 38%float]].
Proof.
  cbn zeta. split; [reflexivity|].
  pose proof (chartData_three_categories
                {| university := JNull;
                   examStats :=
                     object [("totalExams", JNum 5%float);
                             ("studentsAssigned", JNum 40%float);
                             ("studentsAttended", JNum 38%float)];
                   loading := false; sidebarOpen := false |} eq_refl)
    as [Hcd _].
  eexists. split; [exact Hcd|]. split; [reflexivity|].
  vm_compute. reflexivity.
Defined.

(** ** Logout *)

(** C6: [handleLogout] returns normally after exactly three effects, in
    this order: the entry "token" is removed from the local storage, one
    success notification is shown, the router moves to "/login".  No other
    storage entry, no state cell and no other notification changes, and no
    request goes out. *)
Theorem handleLogout_sequence (w : World) :
  let s := handleLogout w in
  let w' := step_world s in
  completion s = Some (Normal tt) /\
  events_between w w' =
    [EStorageRemove "token"; EToastSuccess "Logged out successfully!";
     ENavigate "/login"] /\
  notifications (events_between w w') = [NSuccess] /\
  localStorage w' = delete "token" (localStorage w) /\
  localStorage w' !! "token" = None /\
  location w' = "/login" /\
  toasts w' =
    {| kind := Success; message := "Logged out successfully!" |} :: toasts w /\
  state w' = state w.
Proof.
  cbn zeta.
  assert (Hev : events_between w (step_world (handleLogout w)) =
                [EStorageRemove "token";
                 EToastSuccess "Logged out successfully!";
                 ENavigate "/login"]) by events.
  rewrite Hev.
  repeat match goal with |- _ /\ _ => split end; try reflexivity.
  simpl. apply lookup_delete_eq.
Qed.

(** ** The navigation panel toggle *)

(** C8: one click on the toggle negates [sidebarOpen] and does nothing
    else: the other three cells, the notifications, the storage and the
    route stay as they are, the handler does not suspend and records no
    request.  Two clicks give back the original state, hence the original
    rendering. *)
Theorem sidebar_toggle_involution (w : World) :
  let s1 := onClick_sidebarToggle w in
  let w1 := step_world s1 in
  let w2 := step_world (onClick_sidebarToggle w1) in
  sidebarOpen (state w1) = negb (sidebarOpen (state w)) /\
  sidebarOpen (state w2) = sidebarOpen (state w) /\
  state w2 = state w /\
  render (state w2) = render (state w) /\
  university (state w1) = university (state w) /\
  examStats (state w1) = examStats (state w) /\
  loading (state w1) = loading (state w) /\
  toasts w1 = toasts w /\
  localStorage w1 = localStorage w /\
  location w1 = location w /\
  completion s1 = Some (Normal tt) /\
  awaited s1 = None /\
  events_between w w1 = [ESetSidebarOpen (negb (sidebarOpen (state w)))] /\
  filter is_request (events_between w w2) = [].
Proof.
  cbn zeta.
  assert (Hst : state (step_world (onClick_sidebarToggle
                  (step_world (onClick_sidebarToggle w)))) = state w).
  { simpl. destruct (state w) as [u e l b]. simpl.
    rewrite negb_involutive. reflexivity. }
  assert (Hev1 : events_between w (step_world (onClick_sidebarToggle w)) =
                 [ESetSidebarOpen (negb (sidebarOpen (state w)))]) by events.
  assert (Hev2 : events_between w (step_world (onClick_sidebarToggle
                   (step_world (onClick_sidebarToggle w)))) =
                 [ESetSidebarOpen (negb (sidebarOpen (state w)));
                  ESetSidebarOpen (negb (negb (sidebarOpen (state w))))])
    by events.
  rewrite Hst, Hev1, Hev2.
  repeat match goal with |- _ /\ _ => split end; reflexivity.
Qed.

(** ** The two fetch operations *)

(** Both fetchers stop at their request, whatever the world. *)
Lemma fetcher_awaits (f : Fetcher) (w : World) :
  awaited (fetcher f w) = Some (axiosInstance_get (endpoint f)).
Proof. destruct f; reflexivity. Qed.

(** After the [await] a fetcher runs to its end without a second
    suspension and without an escaping error. *)
Lemma fetcher_returns (f : Fetcher) (w : World) (between : World -> World)
  (o : Axios.Settlement) :
  completion (outcome (run (fetcher f) w between o)) = Some (Normal tt).
Proof. destruct f, o; reflexivity. Qed.

(** Both fetchers end in [finally { setLoading(false) }], so the world a
    fetcher leaves is one in which [loading] has just been set to false. *)
Lemma fetcher_finally (f : Fetcher) (w : World) (between : World -> World)
  (o : Axios.Settlement) :
  loading (state (final (run (fetcher f) w between o))) = false.
Proof.
  assert (Hshape : exists body h g,
            fetcher f = try_catch_finally body h (effect g) /\
            forall w0, loading (state (g w0)) = false).
  { destruct f; do 3 eexists; (split; [reflexivity|]);
      intros w0; reflexivity. }
  destruct Hshape as [body [h [g [Hf Hg]]]].
  pose proof (fetcher_returns f w between o) as Hret.
  rewrite Hf in Hret |- *.
  destruct (finally_runs_last g body h w between o _ Hret) as [w0 ->].
  apply Hg.
Qed.

(** A fetcher leaves the other cells alone, and the only notification
    left on screen is the one it has just shown. *)
Lemma fetcher_cleanup (f : Fetcher) (w : World) (between : World -> World)
  (o : Axios.Settlement) :
  let r := run (fetcher f) w between o in
  sidebarOpen (state (final r)) = sidebarOpen (state (resumed_at r)) /\
  other_slice f (state (final r)) = other_slice f (state (resumed_at r)) /\
  exists msg,
    toasts (final r) =
      [ {| kind := match o with
                   | Axios.Fulfilled _ => Success
                   | Axios.Rejected _ => Error
                   end;
           message := msg |} ].
Proof.
  cbn zeta.
  destruct f, o;
    (split; [reflexivity|]); (split; [reflexivity|]); eexists; reflexivity.
Qed.



(** The events of a fetcher before its [await]: the flag, the loading
    notification, then the request. *)
Lemma fetcher_events_before (f : Fetcher) (w : World)
  (between : World -> World) (o : Axios.Settlement) :
  exists msg,
    events_before_await w (run (fetcher f) w between o) =
      [ESetLoading true; EToastLoading msg;
       ERequest (axiosInstance_get (endpoint f))] /\
    toasts (suspended_at (run (fetcher f) w between o)) =
      {| kind := Loading; message := msg |} :: toasts w.
Proof.
  destruct f; eexists;
    (split; [unfold events_before_await; simpl; events|reflexivity]).
Qed.

(** The events of a fetcher after a response: the state cell, the
    dismissal, the success notification, the flag. *)
Lemma fetcher_events_fulfilled (f : Fetcher) (w : World)
  (between : World -> World) (response : Axios.Response) :
  exists set msg,
    events_after_await (run (fetcher f) w between (Axios.Fulfilled response))
    = [set; EToastDismiss; EToastSuccess msg; ESetLoading false] /\
    notification set = None.
Proof.
  destruct f; do 2 eexists;
    (split; [unfold events_after_await, final; simpl; events|reflexivity]).
Qed.

(** The events of a fetcher after a rejection: the console entry, the
    dismissal, the error notification, the flag. *)
Lemma fetcher_events_rejected (f : Fetcher) (w : World)
  (between : World -> World) (e : Thrown) :
  exists label msg,
    events_after_await (run (fetcher f) w between (Axios.Rejected e))
    = [EConsoleError label e; EToastDismiss; EToastError msg;
       ESetLoading false].
Proof.
  destruct f; do 2 eexists;
    unfold events_after_await, final; simpl; events.
Qed.

Lemma fetcher_notifications (f : Fetcher) (w : World)
  (between : World -> World) (o : Axios.Settlement) :
  notifications (run_events w (run (fetcher f) w between o)) =
    [NLoading; NDismissAll;
     match o with
     | Axios.Fulfilled _ => NSuccess
     | Axios.Rejected _ => NError
     end].
Proof.
  unfold run_events, notifications. rewrite omap_app.
  destruct (fetcher_events_before f w between o) as [msg [-> _]].
  destruct o as [response|e].
  - destruct (fetcher_events_fulfilled f w between response)
      as [set [msg' [-> Hset]]].
    simpl. rewrite Hset. reflexivity.
  - destruct (fetcher_events_rejected f w between e) as [label [msg' ->]].
    reflexivity.
Qed.

(** C3: when the request of a fetcher is rejected, the fetcher still
    returns normally (the error is not rethrown); its own state cell, the
    other fetcher's cell and [sidebarOpen] are what they were when it
    resumed, and the part before the [await] had not touched its cell
    either; exactly one error notification and no success notification is
    emitted, and after the [await] no state setter other than
    [setLoading(false)] is called; afterwards the error notification is the only one on screen,
    so no loading notification is left; the rendering is the one of the
    state it resumed in.  Run on its own, it leaves the state it was
    called in, with [loading] false, and the rendering of that state. *)
Theorem fetch_failure_leaves_state (f : Fetcher) (w : World)
  (between : World -> World) (e : Thrown) :
  let r := run (fetcher f) w between (Axios.Rejected e) in
  let alone := run (fetcher f) w id (Axios.Rejected e) in
  completion (outcome r) = Some (Normal tt) /\
  slice f (state (suspended_at r)) = slice f (state w) /\
  slice f (state (final r)) = slice f (state (resumed_at r)) /\
  other_slice f (state (final r)) = other_slice f (state (resumed_at r)) /\
  sidebarOpen (state (final r)) = sidebarOpen (state (resumed_at r)) /\
  filter (fun n => bool_decide (n = NError))
    (notifications (run_events w r)) = [NError] /\
  filter (fun n => bool_decide (n = NSuccess))
    (notifications (run_events w r)) = [] /\
  (exists label msg,
     events_after_await r =
       [EConsoleError label e; EToastDismiss; EToastError msg;
        ESetLoading false]) /\
  (exists msg, toasts (final r) = [ {| kind := Error; message := msg |} ]) /\
  filter is_loading_toast (toasts (final r)) = [] /\
  render (state (final r)) = render (state (resumed_at r)) /\
  render (state (final alone)) = render (state w) /\
  state (final alone) =
    {| university := university (state w); examStats := examStats (state w);
       loading := false; sidebarOpen := sidebarOpen (state w) |}.
Proof.
  intros r alone.
  pose proof (fetcher_cleanup f w between (Axios.Rejected e))
    as [Hside [Hother Htoasts]].
  fold r in Hside, Hother, Htoasts.
  split; [apply fetcher_returns|].
  split; [destruct f; reflexivity|].
  split; [destruct f; reflexivity|].
  split; [exact Hother|].
  split; [exact Hside|].
  unfold r at 1 2. rewrite fetcher_notifications.
  split; [reflexivity|]. split; [reflexivity|].
  split; [apply fetcher_events_rejected|].
  split; [exact Htoasts|].
  split; [destruct Htoasts as [msg ->]; reflexivity|].
  split; [destruct f; reflexivity|].
  split; destruct f; reflexivity.
Qed.

(** C4: every invocation of a fetcher, whatever the settlement of its
    request, (1) shows the loading notification immediately before the
    request goes out, both after [setLoading(true)]; (2) after the
    [await], dismisses all notifications before it shows the success or
    error notification, so that no loading notification is left on screen;
    (3) ends with [setLoading(false)] as its last
    effect, returns normally, and leaves [loading] false. *)
Theorem fetch_cleanup_on_every_path (f : Fetcher) (w : World)
  (between : World -> World) (o : Axios.Settlement) :
  let r := run (fetcher f) w between o in
  awaited (fetcher f w) = Some (axiosInstance_get (endpoint f)) /\
  (exists msg,
     events_before_await w r =
       [ESetLoading true; EToastLoading msg;
        ERequest (axiosInstance_get (endpoint f))] /\
     toasts (suspended_at r) =
       {| kind := Loading; message := msg |} :: toasts w) /\
  (exists first result,
     events_after_await r =
       [first; EToastDismiss; result; ESetLoading false] /\
     notification first = None /\
     notification result =
       Some match o with
            | Axios.Fulfilled _ => NSuccess
            | Axios.Rejected _ => NError
            end) /\
  completion (outcome r) = Some (Normal tt) /\
  loading (state (final r)) = false /\
  filter is_loading_toast (toasts (final r)) = [].
Proof.
  intros r.
  split; [apply fetcher_awaits|].
  split; [apply fetcher_events_before|].
  split.
  { destruct o as [response|e].
    - destruct (fetcher_events_fulfilled f w between response)
        as [set [msg [Hev Hset]]].
      exists set, (EToastSuccess msg). repeat split; assumption || reflexivity.
    - destruct (fetcher_events_rejected f w between e) as [label [msg Hev]].
      exists (EConsoleError label e), (EToastError msg).
      repeat split; assumption || reflexivity. }
  split; [apply fetcher_returns|].
  split; [apply fetcher_finally|].
  destruct (fetcher_cleanup f w between o) as [_ [_ [msg Ht]]].
  fold r in Ht. rewrite Ht. destruct o; reflexivity.
Qed.

(** C5: the notification calls of one invocation of a fetcher are, in
    this order, one loading notification, one dismissal of all
    notifications, and then one success notification if the request was
    fulfilled, one error notification if it was rejected. *)
Theorem fetch_notification_order (f : Fetcher) (w : World)
  (between : World -> World) (o : Axios.Settlement) :
  let r := run (fetcher f) w between o in
  notifications (run_events w r) =
    [NLoading; NDismissAll;
     match o with
     | Axios.Fulfilled _ => NSuccess
     | Axios.Rejected _ => NError
     end] /\
  notifications (events_before_await w r) = [NLoading].
Proof.
  intros r. split; [apply fetcher_notifications|].
  destruct (fetcher_events_before f w between o) as [msg [Hev _]].
  fold r in Hev. rewrite Hev. reflexivity.
Qed.

(** ** Replacement of the statistics *)

Lemma chart_value_defined (stats : JsValue) (c : Category) :
  nullish stats = false ->
  chart_value stats c = Some (property stats (category_field c)).
Proof.
  intros Hn. unfold chart_value. rewrite (chartData_defined stats Hn).
  destruct c; reflexivity.
Qed.

Lemma chart_value_nullish (stats : JsValue) (c : Category) :
  nullish stats = true -> chart_value stats c = None.
Proof.
  intros Hn. unfold chart_value. rewrite (chartData_nullish stats Hn).
  reflexivity.
Qed.

(** C7: after every successful response of the statistics fetch,
    [examStats] is the response body itself, whatever it was before and
    whatever the body carries; the chart is then derived from the body
    alone: each bar has the value of its field in the body.  So for a
    field the body does not carry, the bar of that category has the value
    [undefined] (and there is no bar at all when the body is [null] or
    [undefined]): the previous value is gone. *)
Theorem stats_success_replaces_wholesale (w : World)
  (between : World -> World) (response : Axios.Response) :
  let r := run fetchExamStats w between (Axios.Fulfilled response) in
  let body := Axios.data response in
  completion (outcome r) = Some (Normal tt) /\
  examStats (state (final r)) = body /\
  chartData (examStats (state (final r))) = chartData body /\
  (forall c : Category,
     chart_value (examStats (state (final r))) c =
       if nullish body then None
       else Some (property body (category_field c))) /\
  (forall c : Category,
     has_own body (category_field c) = false ->
     chart_value (examStats (state (final r))) c =
       if nullish body then None else Some JUndefined).
Proof.
  intros r body. split; [reflexivity|]. split; [reflexivity|].
  split; [reflexivity|].
  change (examStats (state (final r))) with body.
  assert (Hall : forall c : Category,
            chart_value body c =
              if nullish body then None
              else Some (property body (category_field c))).
  { intros c. destruct (nullish body) eqn:Hn.
    - apply chart_value_nullish. exact Hn.
    - apply chart_value_defined. exact Hn. }
  split; [exact Hall|].
  intros c Hown. rewrite Hall, (property_missing _ _ Hown). reflexivity.
Qed.

Lemma stats_success_replaces_wholesale_witness :
  let before :=
    with_state (fun s =>
      {| university := university s;
         examStats :=
           object [("totalExams", JNum 5%float);
                   ("studentsAssigned", JNum 40%float);
                   ("studentsAttended", JNum 38%float)];
         loading := loading s; sidebarOpen := sidebarOpen s |})
      (initial_world ∅ "/university/dashboard") in
  let response :=
    {| Axios.data :=
         object [("totalExams", JNum 7%float);
                 ("studentsAssigned", JNum 41%float)];
       Axios.status := 200 |} in
  let r := run fetchExamStats before id (Axios.Fulfilled response) in
  has_own (Axios.data response) (category_field StudentsAttended) = false /\
  chart_value (examStats (state before)) StudentsAttended =
    Some (JNum 38%float) /\
  chart_value (examStats (state (final r))) StudentsAttended =
    Some JUndefined /\
  chart_value (examStats (state (final r))) TotalExams =
    Some (JNum 7%float).
Proof.
  cbn zeta.
  split; [vm_compute; reflexivity|].
  split; [vm_compute; reflexivity|].
  pose proof (stats_success_replaces_wholesale
                (with_state (fun s =>
                   {| university := university s;
                      examStats :=
                        object [("totalExams", JNum 5%float);
                                ("studentsAssigned", JNum 40%float);
                                ("studentsAttended", JNum 38%float)];
                      loading := loading s; sidebarOpen := sidebarOpen s |})
                   (initial_world ∅ "/university/dashboard"))
                id
                {| Axios.data :=
                     object [("totalExams", JNum 7%float);
                             ("studentsAssigned", JNum 41%float)];
                   Axios.status := 200 |})
    as [_ [_ [_ [Hall Hmissing]]]].
  split.
  - refine (Hmissing StudentsAttended _). vm_compute. reflexivity.
  - rewrite (Hall TotalExams). vm_compute. reflexivity.
Defined.

(** ** The shared loading flag *)

(** C9: once the mount effect has started both fetchers, [loading] is true
    and both requests are in flight.  Whichever request settles first, and
    however it settles, the fetcher that resumes sets [loading] to false
    while the request of the other fetcher is still in flight.  When that
    one settles too, nothing is in flight and [loading] is false; no error
    escapes. *)
Theorem shared_loading_flag_race (w : World) (g g' : World -> World)
  (first : Fetcher) (o o' : Axios.Settlement) :
  let mounted := useEffect_mount (idle w) in
  let one_done := settle (endpoint first) o (interfere g mounted) in
  let both_done :=
    settle (endpoint (other first)) o' (interfere g' one_done) in
  loading (state (world mounted)) = true /\
  pending mounted = [endpoint ProfileFetcher; endpoint StatsFetcher] /\
  loading (state (world one_done)) = false /\
  pending one_done = [endpoint (other first)] /\
  loading (state (world both_done)) = false /\
  pending both_done = [] /\
  unhandled both_done = [].
Proof.
  cbn zeta. split; [reflexivity|]. split; [reflexivity|].
  destruct first, o, o'; repeat split.
Qed.

(** * Further properties of the component *)

(** ** The profile card *)

Lemma or_else_truthy (a b : JsValue) :
  truthy b = true -> truthy (or_else a b) = true.
Proof.
  intros Hb. unfold or_else. destruct (truthy a) eqn:Ha; assumption.
Qed.

(** X1: the profile card never throws, whatever value [university] holds:
    a truthy value gives the profile fields, with [universityName] and
    [universityEmail] passed on as they are and a truthy logo source; a
    falsy value gives the placeholder text. *)
Theorem universityInfo_never_throws (u : JsValue) :
  match universityInfo u with
  | Normal (ProfileFields logoSrc name_ email) =>
      truthy u = true /\
      truthy logoSrc = true /\
      name_ = property u P_universityName /\
      email = property u P_universityEmail
  | Normal (ProfilePlaceholder text) =>
      truthy u = false /\ text = "Loading university data..."
  | Throw _ => False
  end.
Proof.
  destruct (truthy u) eqn:Ht.
  - rewrite (universityInfo_truthy u Ht).
    split; [reflexivity|]. split; [|split; reflexivity].
    apply or_else_truthy. reflexivity.
  - rewrite (universityInfo_falsy u Ht). split; reflexivity.
Qed.

(** X2: for a truthy [university], the logo is the [secure_url] of its
    [universityLogo] when that logo is neither [null] nor [undefined] and
    the url is truthy; in every other case (no logo, a logo without url, an
    empty url) it is the fixed placeholder image. *)
Theorem logo_falls_back_to_placeholder (u : JsValue) :
  truthy u = true ->
  let logo := property u P_universityLogo in
  let url := property logo P_secure_url in
  exists card,
    universityInfo u = Normal card /\
    logo_src card =
      Some (if nullish logo then JStr "https://via.placeholder.com/64"
            else if truthy url then url
            else JStr "https://via.placeholder.com/64").
Proof.
  intros Ht logo url. eexists. split; [apply universityInfo_truthy, Ht|].
  simpl. fold logo. destruct (nullish logo) eqn:Hn; [reflexivity|].
  fold url. unfold or_else. destruct (truthy url); reflexivity.
Qed.

Lemma logo_falls_back_to_placeholder_witness :
  let u :=
    object [("universityName", JStr "Alpha U");
            ("universityEmail", JStr "a@x.edu");
            ("universityLogo", object [("secure_url", JStr "")])] in
  truthy u = true /\
  exists card,
    universityInfo u = Normal card /\
    logo_src card = Some (JStr "https://via.placeholder.com/64").
Proof.
  cbn zeta. split; [reflexivity|].
  destruct (logo_falls_back_to_placeholder
              (object [("universityName", JStr "Alpha U");
                       ("universityEmail", JStr "a@x.edu");
                       ("universityLogo", object [("secure_url", JStr "")])])
              eq_refl) as [card [Hcard Hsrc]].
  exists card. split; [exact Hcard|].
  rewrite Hsrc. vm_compute. reflexivity.
Defined.

(** ** Rendering *)


(** X4: whenever the component shows something, the chart has received
    exactly one dataset; the headings of the three counters are the three
    labels of the chart, and the text of each counter is the text of the
    value of that dataset at the same position. *)
Theorem cards_agree_with_chart (s : ViewState) :
  match display s with
  | Shown scr =>
      exists ds,
        Chart.datasets (chart_data scr) = [ds] /\
        map fst (counters scr) = Chart.labels (chart_data scr) /\
        map Some (map snd (counters scr)) = map text_nodes (Chart.data ds) /\
        length (counters scr) = 3
  | Crashed _ => displayable s = false
  end.
Proof.
  destruct (displayable s) eqn:Hd.
  - destruct (display_shown s Hd)
      as [scr [-> [_ [_ [Htxt [Hhead [Hcd _]]]]]]].
    unfold displayable in Hd. apply andb_prop in Hd as [Hd _].
    apply andb_prop in Hd as [Hd _]. apply andb_prop in Hd as [Hd _].
    apply andb_prop in Hd as [Hn _]. apply negb_true_iff in Hn.
    rewrite (chartData_defined _ Hn) in Hcd. injection Hcd as <-.
    eexists. split; [reflexivity|]. split; [exact Hhead|].
    split; [exact Htxt|].
    rewrite <- (length_map fst), Hhead. reflexivity.
  - destruct (display_crashed s Hd) as [c [-> _]]. reflexivity.
Qed.

(** ** What a fetcher touches *)

(** X5: a fetcher writes its own cell and [loading], nothing else.  On
    either path the other fetcher's cell, [sidebarOpen], the local storage
    and the route are what they were when it resumed (and the part before
    the [await] had left them, and its own cell, alone); its own cell ends
    as the response body when the request was fulfilled and as it was when
    the request was rejected. *)
Theorem fetcher_frame (f : Fetcher) (w : World)
  (between : World -> World) (o : Axios.Settlement) :
  let r := run (fetcher f) w between o in
  slice f (state (suspended_at r)) = slice f (state w) /\
  other_slice f (state (suspended_at r)) = other_slice f (state w) /\
  sidebarOpen (state (suspended_at r)) = sidebarOpen (state w) /\
  loading (state (suspended_at r)) = true /\
  localStorage (suspended_at r) = localStorage w /\
  location (suspended_at r) = location w /\
  slice f (state (final r)) =
    match o with
    | Axios.Fulfilled response => Axios.data response
    | Axios.Rejected _ => slice f (state (resumed_at r))
    end /\
  other_slice f (state (final r)) = other_slice f (state (resumed_at r)) /\
  sidebarOpen (state (final r)) = sidebarOpen (state (resumed_at r)) /\
  localStorage (final r) = localStorage (resumed_at r) /\
  location (final r) = location (resumed_at r).
Proof.
  cbn zeta. destruct f, o;
    repeat match goal with |- _ /\ _ => split end; reflexivity.
Qed.

Lemma filter_request_app (l k : list Event) :
  filter is_request (l ++ k) = filter is_request l ++ filter is_request k.
Proof. apply filter_app. Qed.

(** X6: one invocation of a fetcher sends exactly one request, a GET to
    its endpoint, and none after the [await]: a rejected request is not
    retried. *)
Theorem fetcher_sends_one_request (f : Fetcher) (w : World)
  (between : World -> World) (o : Axios.Settlement) :
  let r := run (fetcher f) w between o in
  filter is_request (run_events w r) =
    [ERequest {| Axios.method := "GET"; Axios.path := endpoint f |}] /\
  filter is_request (events_after_await r) = [] /\
  awaited (outcome r) = None.
Proof.
  intros r.
  assert (Hafter : filter is_request (events_after_await r) = []).
  { destruct o as [response|e].
    - destruct (fetcher_events_fulfilled f w between response)
        as [set [msg [Hev Hset]]].
      fold r in Hev. rewrite Hev.
      destruct set; try discriminate Hset; try reflexivity.
      all: exfalso; subst r; destruct f;
        unfold events_after_await, final in Hev; simpl in Hev;
        erewrite events_between_app in Hev
          by (simpl; rewrite <- ?app_assoc; reflexivity);
        discriminate Hev.
    - destruct (fetcher_events_rejected f w between e) as [label [msg Hev]].
      fold r in Hev. rewrite Hev. reflexivity. }
  split; [|split; [exact Hafter|]].
  - unfold run_events. rewrite filter_request_app, Hafter.
    destruct (fetcher_events_before f w between o) as [msg [Hev _]].
    fold r in Hev. rewrite Hev. reflexivity.
  - subst r. destruct f, o; reflexivity.
Qed.

(** ** From the mount to both settlements *)

(** X7: starting the two fetches changes nothing on screen but the
    notifications: after the mount effect both requests are in flight,
    profile first, both loading notifications are visible, the state
    differs from the one before only in [loading], and the component
    renders as it did. *)
Theorem mount_keeps_rendering (w : World) :
  let rt := useEffect_mount (idle w) in
  pending rt = ["/university/profile"; "/university/exam/stats"] /\
  filter is_request (events_between w (world rt)) =
    [ERequest (axiosInstance_get "/university/profile");
     ERequest (axiosInstance_get "/university/exam/stats")] /\
  map kind (toasts (world rt)) = Loading :: Loading :: map kind (toasts w) /\
  state (world rt) =
    {| university := university (state w); examStats := examStats (state w);
       loading := true; sidebarOpen := sidebarOpen (state w) |} /\
  render (state (world rt)) = render (state w) /\
  unhandled rt = [].
Proof.
  cbn zeta.
  assert (Hev : events_between w (world (useEffect_mount (idle w))) =
    [ESetLoading true; EToastLoading "Fetching university data...";
     ERequest (axiosInstance_get "/university/profile");
     ESetLoading true; EToastLoading "Fetching exam statistics...";
     ERequest (axiosInstance_get "/university/exam/stats")]) by events.
  rewrite Hev.
  repeat match goal with |- _ /\ _ => split end; reflexivity.
Qed.

(** X8: the state the component ends in does not depend on which request
    settles first: for any two settlements, both orders give the same four
    cells, the same storage and the same route, with nothing left in flight
    and no escaped error. *)
Theorem settlement_order_irrelevant_for_state (w : World)
  (oP oS : Axios.Settlement) :
  let profile_first := lifecycle w ProfileFetcher oP oS in
  let stats_first := lifecycle w StatsFetcher oP oS in
  state (world profile_first) = state (world stats_first) /\
  localStorage (world profile_first) = localStorage (world stats_first) /\
  location (world profile_first) = location (world stats_first) /\
  pending profile_first = [] /\ pending stats_first = [] /\
  unhandled profile_first = [] /\ unhandled stats_first = [] /\
  state (world profile_first) =
    {| university :=
         match oP with
         | Axios.Fulfilled response => Axios.data response
         | Axios.Rejected _ => university (state w)
         end;
       examStats :=
         match oS with
         | Axios.Fulfilled response => Axios.data response
         | Axios.Rejected _ => examStats (state w)
         end;
       loading := false;
       sidebarOpen := sidebarOpen (state w) |}.
Proof.
  cbn zeta. destruct oP, oS;
    repeat match goal with |- _ /\ _ => split end; reflexivity.
Qed.


(** X10: over the whole life of the component, from the mount to the
    second settlement, exactly two requests go out, and the notification
    calls are: loading, loading, dismiss-all, the result of the first
    settlement, dismiss-all, the result of the second. *)
Theorem lifecycle_notifications (w : World) (first : Fetcher)
  (oP oS : Axios.Settlement) :
  let done := lifecycle w first oP oS in
  notifications (events_between w (world done)) =
    [NLoading; NLoading; NDismissAll;
     result_notification (settlement_of oP oS first);
     NDismissAll;
     result_notification (settlement_of oP oS (other first))] /\
  filter is_request (events_between w (world done)) =
    [ERequest (axiosInstance_get "/university/profile");
     ERequest (axiosInstance_get "/university/exam/stats")].
Proof.
  cbn zeta.
  destruct first, oP, oS;
    (erewrite events_between_app;
     [|simpl; rewrite <- ?app_assoc; reflexivity]);
    split; reflexivity.
Qed.



(** X12: a rejected profile request is never made up for.  Starting from
    the initial state, in whichever order the two requests settle, the
    component ends with [university] still [null], nothing in flight,
    [loading] false and only the two first requests sent.  When the
    statistics request was rejected too, the component shows the profile
    card reading "Loading university data...".  When it was fulfilled, the
    component shows that same placeholder if the state is displayable, and
    shows nothing otherwise (a statistics body that is [null] or
    [undefined] or carries an object in a displayed field).  The profile
    fields are never shown. *)
Theorem failed_profile_keeps_placeholder (storage : gmap string string)
  (at_ : string) (first : Fetcher) (e : Thrown) (oS : Axios.Settlement) :
  let done :=
    lifecycle (initial_world storage at_) first (Axios.Rejected e) oS in
  let s := state (world done) in
  university s = JNull /\
  loading s = false /\
  pending done = [] /\
  length (filter is_request (trace (world done))) = 2 /\
  match oS with
  | Axios.Rejected _ =>
      exists scr,
        display s = Shown scr /\
        card scr = ShownPlaceholder "Loading university data..."
  | Axios.Fulfilled _ =>
      if displayable s then
        exists scr,
          display s = Shown scr /\
          card scr = ShownPlaceholder "Loading university data..."
      else exists c, display s = Crashed c
  end /\
  match display s with
  | Shown scr => card scr = ShownPlaceholder "Loading university data..."
  | Crashed _ => displayable s = false
  end.
Proof.
  intros done s.
  assert (Hu : university s = JNull)
    by (subst s done; destruct first, oS; reflexivity).
  assert (Hshown : displayable s = true ->
            exists scr, display s = Shown scr /\
              card scr = ShownPlaceholder "Loading university data...").
  { intros Hd. destruct (display_shown s Hd) as [scr [Hscr [_ [Hcard _]]]].
    exists scr. split; [exact Hscr|].
    rewrite Hu in Hcard. destruct (card scr) as [src tn te|text].
    - destruct Hcard as [Ht _]. discriminate Ht.
    - destruct Hcard as [_ ->]. reflexivity. }
  split; [exact Hu|].
  split; [subst s done; destruct first, oS; reflexivity|].
  split; [subst done; destruct first, oS; reflexivity|].
  split; [subst done; destruct first, oS; reflexivity|].
  split.
  - destruct oS as [rs|e'].
    + destruct (displayable s) eqn:Hd; [apply Hshown; reflexivity|].
      destruct (display_crashed s Hd) as [c [Hc _]]. exists c. exact Hc.
    + apply Hshown. subst s done. destruct first; vm_compute; reflexivity.
  - destruct (displayable s) eqn:Hd.
    + destruct (Hshown eq_refl) as [scr [-> Hcard]]. exact Hcard.
    + destruct (display_crashed s Hd) as [c [-> _]]. reflexivity.
Qed.

(** ** Logout without a token *)

(** The effects of [handleLogout], for the facts about the storage. *)
Lemma handleLogout_events (w : World) :
  events_between w (step_world (handleLogout w)) =
    [EStorageRemove "token"; EToastSuccess "Logged out successfully!";
     ENavigate "/login"] /\
  localStorage (step_world (handleLogout w)) =
    delete "token" (localStorage w) /\
  location (step_world (handleLogout w)) = "/login".
Proof.
  split; [events|]. split; reflexivity.
Qed.

(** X13: when no token is stored, [handleLogout] leaves the local storage
    as it is and still shows the success notification and moves to
    "/login". *)
Theorem handleLogout_without_token (w : World) :
  localStorage w !! "token" = None ->
  let w' := step_world (handleLogout w) in
  localStorage w' = localStorage w /\
  notifications (events_between w w') = [NSuccess] /\
  location w' = "/login".
Proof.
  intros Hnone.
  destruct (handleLogout_events w) as [Hev [Hst Hloc]].
  cbn zeta. rewrite Hev. split; [|split; [reflexivity|exact Hloc]].
  rewrite Hst. apply delete_id. exact Hnone.
Qed.

Lemma handleLogout_without_token_witness :
  let w := initial_world {[ "theme" := "dark" ]} "/university/dashboard" in
  localStorage w !! "token" = None /\
  localStorage (step_world (handleLogout w)) = {[ "theme" := "dark" ]} /\
  location (step_world (handleLogout w)) = "/login".
Proof.
  cbn zeta.
  assert (Hnone : localStorage
            (initial_world {[ "theme" := "dark" ]} "/university/dashboard")
            !! "token" = None) by (vm_compute; reflexivity).
  split; [exact Hnone|].
  destruct (handleLogout_without_token _ Hnone) as [Hst [_ Hloc]].
  split; [exact Hst|exact Hloc].
Defined.

(** ** Any number of clicks on the toggle *)

(** What [n] clicks record: [n] calls of [setSidebarOpen], no request. *)
Lemma clicks_trace (n : nat) (w : World) :
  exists es,
    trace (clicks n w) = trace w ++ es /\
    length es = n /\
    filter is_request es = [].
Proof.
  induction n as [|n IH].
  - exists []. simpl. rewrite app_nil_r. repeat split.
  - destruct IH as [es [Htr [Hlen Hreq]]].
    exists (es ++ [ESetSidebarOpen (negb (sidebarOpen (state (clicks n w))))]).
    split; [|split].
    + simpl. rewrite Htr, app_assoc. reflexivity.
    + rewrite length_app, Hlen. simpl. lia.
    + rewrite filter_app, Hreq. reflexivity.
Qed.

(** X14: after [n] clicks on the toggle the panel is as it was when [n] is
    even and the opposite when [n] is odd; the other three cells, the
    notifications, the storage and the route never change, and the [n]
    clicks record [n] events, none of them a request. *)
Theorem clicks_parity (n : nat) (w : World) :
  sidebarOpen (state (clicks n w)) = xorb (Nat.odd n) (sidebarOpen (state w)) /\
  university (state (clicks n w)) = university (state w) /\
  examStats (state (clicks n w)) = examStats (state w) /\
  loading (state (clicks n w)) = loading (state w) /\
  toasts (clicks n w) = toasts w /\
  localStorage (clicks n w) = localStorage w /\
  location (clicks n w) = location w /\
  length (events_between w (clicks n w)) = n /\
  filter is_request (events_between w (clicks n w)) = [].
Proof.
  destruct (clicks_trace n w) as [es [Htr [Hlen Hreq]]].
  rewrite (events_between_app w (clicks n w) es Htr).
  assert (Hcells :
    sidebarOpen (state (clicks n w)) =
      xorb (Nat.odd n) (sidebarOpen (state w)) /\
    university (state (clicks n w)) = university (state w) /\
    examStats (state (clicks n w)) = examStats (state w) /\
    loading (state (clicks n w)) = loading (state w) /\
    toasts (clicks n w) = toasts w /\
    localStorage (clicks n w) = localStorage w /\
    location (clicks n w) = location w).
  { clear es Htr Hlen Hreq. induction n as [|n IH].
    - simpl. repeat split.
    - destruct IH as [Hs [Hu [He [Hl [Ht [Hls Hloc]]]]]].
      simpl. rewrite Hs, Hu, He, Hl, Ht, Hls, Hloc.
      repeat split.
      rewrite Nat.odd_succ, <- Nat.negb_odd.
      destruct (Nat.odd n), (sidebarOpen (state w)); reflexivity. }
  destruct Hcells as [Hs [Hu [He [Hl [Ht [Hls Hloc]]]]]].
  repeat split; assumption.
Qed.

(** ** Navigation *)

(** X15: a click on an entry of the panel, or on one of the buttons Edit
    Profile, Manage Exams, View Students, only moves the route: the
    handler returns without suspending, records the one navigation, and
    leaves the four cells, the notifications and the local storage
    (the token included) alone.  The three buttons lead where the entries
    Profile, Exams and Students of the panel lead. *)
Theorem navigation_only_moves_route (item : SidebarItem) (w : World) :
  let s := onClick_sidebarItem item w in
  let w' := step_world s in
  completion s = Some (Normal tt) /\
  awaited s = None /\
  events_between w w' = [ENavigate (item_path item)] /\
  location w' = item_path item /\
  state w' = state w /\
  toasts w' = toasts w /\
  localStorage w' = localStorage w /\
  map (fun i => step_world (onClick_sidebarItem i w))
    (filter (fun i => negb (active i)) sidebarItems) =
    [step_world (onClick_manageExams w);
     step_world (onClick_viewStudents w);
     step_world (onClick_editProfile w)].
Proof.
  cbn zeta.
  assert (Hev : events_between w (step_world (onClick_sidebarItem item w)) =
                [ENavigate (item_path item)]) by events.
  rewrite Hev.
  repeat match goal with |- _ /\ _ => split end; reflexivity.
Qed.
